(** * stateflow.statefields: state fields, their coercing accessor and flow resolver

    A shallow embedding of [stateflow/statefields.py].  Python objects are
    first-order values ([pyval]); a raised exception is the [Raise] branch of
    [result]; the per-instance [__dict__] of a record is a [gmap] from
    attribute names to values; the only effect that is threaded as state is
    the sequence of calls made to [import_module]. *)

From Stdlib Require Import Ascii String.
From stdpp Require Import gmap strings list pretty.

(** ** Exceptions and results *)

Inductive exn :=
| TypeError (msg : string)
| ValueError (msg : string)
| AttributeError (attr : string)
| KeyError (key : string)
| LookupError (msg : string)
| ImportError (modname : string).

Inductive result (A : Type) :=
| Ok (a : A)
| Raise (e : exn).
Arguments Ok {A} a.
Arguments Raise {A} e.

Definition result_bind {A B} (r : result A) (k : A -> result B) : result B :=
  match r with
  | Ok a => k a
  | Raise e => Raise e
  end.

#[global] Instance result_ret : MRet result := fun A a => Ok a.
#[global] Instance result_bind_inst : MBind result := fun A B k r => result_bind r k.

#[global] Instance exn_eq_dec : EqDecision exn.
Proof. solve_decision. Defined.

(** ** Classes and values *)

(** Modelled from the spec: the declaration of a state, a subclass of
    [DjangoState] of stateflow/stateclass.py, which statefields.py imports
    and which is not part of the sources.  A state carries its storable
    token ([st_value], what [get_value()] returns) and its human label;
    [st_name] is the qualified name of the class. *)
Record StateDecl := mkState {
  st_name : string;
  st_value : string;
  st_title : string
}.

(** Modelled from the spec: the declaration of a flow, a subclass of [Flow]
    of stateflow/stateclass.py: an ordered, fixed collection of states
    declared together. *)
Record FlowDecl := mkFlow {
  fl_name : string;
  fl_states : list StateDecl
}.

Inductive pyclass :=
| ClsState (s : StateDecl)      (* a subclass of DjangoState *)
| ClsFlow (f : FlowDecl)        (* a subclass of Flow *)
| ClsOther (qualname : string). (* any other class *)

Inductive pyval :=
| PyNone
| PyStr (s : string)
| PyInt (z : Z)
| PyClass (c : pyclass)  (* a class object *)
| PyInst (c : pyclass).  (* an instance of the class *)

#[global] Instance StateDecl_eq_dec : EqDecision StateDecl.
Proof. solve_decision. Defined.
#[global] Instance FlowDecl_eq_dec : EqDecision FlowDecl.
Proof. solve_decision. Defined.
#[global] Instance pyclass_eq_dec : EqDecision pyclass.
Proof. solve_decision. Defined.
#[global] Instance pyval_eq_dec : EqDecision pyval.
Proof. solve_decision. Defined.

(** The two base classes the module imports from [.stateclass]. *)
Inductive base_class := DjangoState | Flow.

Definition class_name (c : pyclass) : string :=
  match c with
  | ClsState s => st_name s
  | ClsFlow f => fl_name f
  | ClsOther n => n
  end.

Definition subclass_of (c : pyclass) (base : base_class) : bool :=
  match c, base with
  | ClsState _, DjangoState => true
  | ClsFlow _, Flow => true
  | _, _ => false
  end.

(** [isinstance(value, type)] *)
Definition is_type (value : pyval) : bool :=
  match value with
  | PyClass _ => true
  | _ => false
  end.

(** [issubclass(value, base)]: raises [TypeError] unless [value] is a class. *)
Definition issubclass (value : pyval) (base : base_class) : result bool :=
  match value with
  | PyClass c => Ok (subclass_of c base)
  | _ => Raise (TypeError "issubclass() arg 1 must be a class")
  end.

(** [isinstance(value, base)]: the class of [value] derives from [base].  A
    class object is an instance of its metaclass, never of [base]. *)
Definition isinstance (value : pyval) (base : base_class) : bool :=
  match value with
  | PyInst c => subclass_of c base
  | _ => false
  end.

(** [str(value)].  Classes print as Python prints a class; for instances
    the default form is kept without the address. *)
Definition py_str (value : pyval) : string :=
  match value with
  | PyNone => "None"
  | PyStr s => s
  | PyInt z => pretty z
  | PyClass c => "<class '" +:+ class_name c +:+ "'>"
  | PyInst c => "<" +:+ class_name c +:+ " object>"
  end.

(** ** The interface consumed from stateflow/stateclass.py *)

(** Modelled from the spec: [DjangoState.get_value()], absent from the
    sources; it returns the canonical storable token of the state. *)
Definition DjangoState_get_value (s : StateDecl) : string := st_value s.

(** Modelled from the spec: [Flow.get_state(token)], absent from the
    sources; it maps a token to its canonical State value and fails with a
    lookup error if the token is unknown. *)
Definition Flow_get_state (f : FlowDecl) (value : pyval) : result pyval :=
  match find (fun s => bool_decide (PyStr (DjangoState_get_value s) = value))
             (fl_states f) with
  | Some s => Ok (PyClass (ClsState s))
  | None => Raise (LookupError (py_str value))
  end.

(** Modelled from the spec: [Flow.state_choices()], absent from the sources;
    the (token, label) pairs of the flow's states, in declaration order. *)
Definition Flow_state_choices (f : FlowDecl) : list (pyval * pyval) :=
  map (fun s => (PyStr (DjangoState_get_value s), PyStr (st_title s)))
      (fl_states f).

(** Method calls on an arbitrary object: the attribute exists only where the
    object is a class of the expected family. *)
Definition call_get_value (value : pyval) : result string :=
  match value with
  | PyClass (ClsState s) | PyInst (ClsState s) => Ok (DjangoState_get_value s)
  | _ => Raise (AttributeError "get_value")
  end.

Definition call_get_state (flow value : pyval) : result pyval :=
  match flow with
  | PyClass (ClsFlow f) => Flow_get_state f value
  | _ => Raise (AttributeError "get_state")
  end.

Definition call_state_choices (flow : pyval) : result (list (pyval * pyval)) :=
  match flow with
  | PyClass (ClsFlow f) => Ok (Flow_state_choices f)
  | _ => Raise (AttributeError "state_choices")
  end.

(** The tokens a flow declares. *)
Definition flow_tokens (f : FlowDecl) : list string :=
  map DjangoState_get_value (fl_states f).

(** States are identified by their token: two states of the flow with the
    same token are the same state. *)
Definition tokens_identify_states (f : FlowDecl) : bool :=
  forallb (fun s1 =>
    forallb (fun s2 =>
      implb (bool_decide (st_value s1 = st_value s2)) (bool_decide (s1 = s2)))
      (fl_states f))
    (fl_states f).

(** ** String primitives used by the resolver *)

(** [s.rindex(c)]: the highest index at which [c] occurs, [None] where
    Python raises [ValueError]. *)
Fixpoint rindex (c : ascii) (s : string) : option nat :=
  match s with
  | EmptyString => None
  | String a s' =>
      match rindex c s' with
      | Some i => Some (S i)
      | None => if Ascii.eqb a c then Some 0 else None
      end
  end.

(** [s[:i]] and [s[i:]] for [0 <= i]. *)
Definition slice_to (s : string) (i : nat) : string := substring 0 i s.
Definition slice_from (s : string) (i : nat) : string :=
  substring i (String.length s - i) s.

(** The character does not occur in the string. *)
Fixpoint absent (c : ascii) (s : string) : bool :=
  match s with
  | EmptyString => true
  | String a s' => negb (Ascii.eqb a c) && absent c s'
  end.

(** ** The import machinery as an effect *)

(** A loaded module: its attributes by name. *)
Abbreviation pymodule := (gmap string pyval).

(** The state threaded through construction: the names [import_module] has
    been called with, oldest first. *)
Definition M (A : Type) : Type := list string -> result A * list string.

#[global] Instance M_ret : MRet M := fun A a st => (Ok a, st).
#[global] Instance M_bind : MBind M := fun A B k c st =>
  match c st with
  | (Ok a, st') => k a st'
  | (Raise e, st') => (Raise e, st')
  end.

Definition raise {A} (e : exn) : M A := fun st => (Raise e, st).

Definition lift {A} (r : result A) : M A := fun st => (r, st).

Section Resolver.

(** What importing a module by name does in the running interpreter: it
    yields the module or raises. *)
Variable finder : string -> result pymodule.

(** [importlib.import_module] *)
Definition import_module (mod_name : string) : M pymodule :=
  fun st => (finder mod_name, st ++ [mod_name]).

(** [getattr(mod, name)] on a module *)
Definition getattr (mod_ : pymodule) (name : string) : result pyval :=
  match mod_ !! name with
  | Some v => Ok v
  | None => Raise (AttributeError name)
  end.

Definition load_flow (flow_path : pyval) : M pyval :=
  match flow_path with
  | PyStr path =>
      match rindex "." path with
      | None => raise (ValueError "substring not found")
      | Some dot =>
          let mod_name := slice_to path dot in
          let cls_name := slice_from path (dot + 1) in
          mod_ ← import_module mod_name;
          flow ← lift (getattr mod_ cls_name);
          mret flow
      end
  | _ => raise (AttributeError "rindex")
  end.

Definition resolve_flow (flow_name : pyval) : M (pyval * pyval) :=
  let flow_is_cls :=
    match issubclass flow_name Flow with
    | Ok b => b
    | Raise _ => false
    end in
  if flow_is_cls then
    mret (flow_name, PyStr (py_str flow_name))
  else
    flow ← load_flow flow_name;
    mret (flow, flow_name).

End Resolver.

(** ** The persistable field *)

Module StateFlowField.

Record t := mk {
  _flow_kwarg : pyval;
  flow : pyval;
  flow_path : pyval;
  verbose_name : pyval;
  name : string
}.

(** The form field [formfield] builds: its choices and its widget class. *)
Inductive widget_class := StateWidget_cls.
Record ChoiceField := mkChoiceField {
  choices : list (pyval * pyval);
  widget : widget_class
}.

(** [__init__(self, verbose_name=None, name=None, flow=None, **kwargs)];
    the name is the attribute name the host framework registers the field
    under; the remaining keyword options go to the host framework's
    [Field.__init__] and are not kept here. *)
Definition __init__ (finder : string -> result pymodule)
    (verbose_name : pyval) (name : string) (flow : pyval) : M t :=
  match flow with
  | PyNone => raise (ValueError "StateFlowField need to have defined flow")
  | _ =>
      '(resolved, path) ← resolve_flow finder flow;
      mret {| _flow_kwarg := flow; flow := resolved; flow_path := path;
              verbose_name := verbose_name; name := name |}
  end.

Definition get_internal_type (self : t) : string := "CharField".

(** [isinstance(value, type) and issubclass(value, DjangoState)]: the
    second test runs only on classes. *)
Definition is_state_class (value : pyval) : result bool :=
  if is_type value then issubclass value DjangoState else Ok false.

Definition get_prep_value (self : t) (value : pyval) : result pyval :=
  match value with
  | PyNone => Ok PyNone
  | _ =>
      is_state ← is_state_class value;
      if is_state : bool then
        token ← call_get_value value;
        mret (PyStr token)
      else Ok (PyStr (py_str value))
  end.

Definition to_python (self : t) (value : pyval) : result pyval :=
  is_state ← is_state_class value;
  if is_state : bool then Ok value
  else call_get_state (flow self) value.

Definition from_db_value (self : t) (value : pyval) : result pyval :=
  to_python self value.

Definition formfield (self : t) : result ChoiceField :=
  state_choices ← call_state_choices (flow self);
  let choices := [(PyNone, PyStr "----")] ++ state_choices in
  mret {| choices := choices; widget := StateWidget_cls |}.

(** [deconstruct(self)]; [super_deconstruct] is the tuple
    [(name, path, args, kwargs)] that the host framework's
    [Field.deconstruct] returns. *)
Definition deconstruct (self : t)
    (super_deconstruct : string * string * list pyval * gmap string pyval)
    : string * string * list pyval * gmap string pyval :=
  let '(name, path, args, kwargs) := super_deconstruct in
  (name, path, args, <["flow" := _flow_kwarg self]> kwargs).

End StateFlowField.

(** ** The coercing accessor *)

(** A record instance: its private per-instance attribute storage. *)
Record instance := mkInstance {
  __dict__ : gmap string pyval
}.

Module Creator.

Record t := mk {
  field : StateFlowField.t
}.

Definition __init__ (field : StateFlowField.t) : t := {| field := field |}.

(** What an attribute read evaluates to: the descriptor itself, or a
    value taken from the instance. *)
Inductive attribute :=
| Descriptor (self : t)
| Value (v : pyval).

(** [__get__(self, obj, type=None)]; [obj] is [None] when the attribute is
    read on the class. *)
Definition __get__ (self : t) (obj : option instance) : result attribute :=
  match obj with
  | None => Ok (Descriptor self)
  | Some o =>
      match __dict__ o !! StateFlowField.name (field self) with
      | Some v => Ok (Value v)
      | None => Raise (KeyError (StateFlowField.name (field self)))
      end
  end.

(** [__set__(self, obj, value)]: the instance after the assignment. *)
Definition __set__ (self : t) (obj : instance) (value : pyval)
    : result instance :=
  coerced ← StateFlowField.to_python (field self) value;
  mret {| __dict__ :=
            <[StateFlowField.name (field self) := coerced]> (__dict__ obj) |}.

End Creator.

(** ** Registration on a record type *)

(** An attribute of a record type: an installed accessor, or anything
    else. *)
Inductive class_attr :=
| Accessor (c : Creator.t)
| Plain (v : pyval).

(** A record type, as far as registration touches it. *)
Record model_class := mkModelClass {
  cls_attrs : gmap string class_attr
}.

(** A [contribute_to_class(self, cls, name)] method of the host framework
    or of a field subclass: it may change the field (the host sets its
    name) and the class, or raise. *)
Definition contribute_fn : Type :=
  StateFlowField.t -> model_class -> string
  -> result (StateFlowField.t * model_class).

(** [setattr(cls, name, Creator(field))] *)
Definition setattr_class (cls : model_class) (name : string)
    (c : Creator.t) : model_class :=
  {| cls_attrs := <[name := Accessor c]> (cls_attrs cls) |}.

(** [make_contrib(superclass, func=None)]; [super_contribute] is the method
    [super(superclass, self).contribute_to_class] resolves to. *)
Definition make_contrib (super_contribute : contribute_fn)
    (func : option contribute_fn) : contribute_fn :=
  fun self cls name =>
    '(self, cls) ← match func with
                   | Some func => func self cls name
                   | None => super_contribute self cls name
                   end;
    mret (self, setattr_class cls (StateFlowField.name self)
                              (Creator.__init__ self)).

(** [SubfieldBase.__new__(cls, name, bases, attrs)]: the
    [contribute_to_class] given to the new class; [attrs] holds the methods
    of that name-space that are [contribute_to_class] candidates. *)
Definition SubfieldBase_new (super_contribute : contribute_fn)
    (attrs : gmap string contribute_fn) : contribute_fn :=
  make_contrib super_contribute (attrs !! "contribute_to_class").

(** ** The select widget *)

Definition dquote : ascii := "034"%char.
Definition newline : ascii := "010"%char.

Definition quoted (s : string) : string :=
  String dquote s +:+ String dquote EmptyString.

Fixpoint join (sep : string) (l : list string) : string :=
  match l with
  | [] => EmptyString
  | [x] => x
  | x :: rest => x +:+ sep +:+ join sep rest
  end.

(** [django.utils.html.escape] on text. *)
Definition escape_char (a : ascii) : string :=
  if Ascii.eqb a "&" then "&amp;"
  else if Ascii.eqb a "<" then "&lt;"
  else if Ascii.eqb a ">" then "&gt;"
  else if Ascii.eqb a dquote then "&quot;"
  else if Ascii.eqb a "'" then "&#39;"
  else String a EmptyString.

Fixpoint escape (s : string) : string :=
  match s with
  | EmptyString => EmptyString
  | String a s' => escape_char a +:+ escape s'
  end.

(** No value of the model is marked safe, so [conditional_escape] escapes. *)
Definition conditional_escape (s : string) : string := escape s.

(** [from module import name] on a loaded module: the object the module
    defines under the name, or [ImportError]. *)
Definition import_from {A : Type} (module_name : string)
    (namespace : gmap string A) (name : string) : result A :=
  match namespace !! name with
  | Some v => Ok v
  | None =>
      Raise (ImportError ("cannot import name '" +:+ name +:+ "' from '"
                            +:+ module_name +:+ "'"))
  end.

(** The text conversions that [django.utils.encoding] defines, by name. *)
Abbreviation encoding_module := (gmap string (pyval -> string)).

(** [django.utils.encoding] in an interpreter that can load
    stateflow/statefields.py: the [metaclass=] keyword in the header of
    [StateFlowField] is Python 3 syntax, and under Python 3 the module
    defines [force_str] and [smart_str] and has no [force_unicode]. *)
Definition django_utils_encoding : encoding_module :=
  <["force_str" := py_str]> (<["smart_str" := py_str]> ∅).

Module StateWidget.

(** The label of a choice: a plain label, or the options of a group. *)
Inductive option_label :=
| Label (l : pyval)
| Group (options : list (pyval * pyval)).

Record t := mk {
  choices : list (pyval * option_label)
}.

(** The inner function of [render_options]; [force_unicode] is the imported
    conversion and [selected_choices] the normalized set it closes over. *)
Definition render_option (force_unicode : pyval -> string)
    (selected_choices : gset string)
    (option_value option_label : pyval) : string :=
  let option_value := force_unicode option_value in
  let selected_html :=
    if bool_decide (option_value ∈ selected_choices)
    then " selected=" +:+ quoted "selected"
    else EmptyString in
  "<option value=" +:+ quoted (escape option_value) +:+ selected_html
    +:+ ">" +:+ conditional_escape (force_unicode option_label)
    +:+ "</option>".

(** The first normalization: the tokens of the selected values that are
    instances of [DjangoState]. *)
Definition selected_tokens (selected_choices : list pyval)
    : result (list string) :=
  mapM call_get_value
       (filter (fun v => isinstance v DjangoState = true) selected_choices).

Definition render_choice (force_unicode : pyval -> string)
    (selected : gset string)
    (choice : pyval * option_label) : list string :=
  match choice with
  | (option_value, Group options) =>
      ["<optgroup label=" +:+ quoted (escape (force_unicode option_value))
         +:+ ">"]
      ++ map (fun option =>
                render_option force_unicode selected option.1 option.2)
             options
      ++ ["</optgroup>"]
  | (option_value, Label option_label) =>
      [render_option force_unicode selected option_value option_label]
  end.

(** [render_options(self, choices, selected_choices)]; [encoding] is what
    [django.utils.encoding] defines in the running interpreter.  The imports
    from [itertools] and [django.utils.html] succeed. *)
Definition render_options (encoding : encoding_module) (self : t)
    (choices : list (pyval * option_label)) (selected_choices : list pyval)
    : result string :=
  force_unicode ← import_from "django.utils.encoding" encoding
                              "force_unicode";
  selected_choices ← selected_tokens selected_choices;
  let selected_choices : gset string :=
    list_to_set (map (fun v => force_unicode (PyStr v)) selected_choices) in
  let output :=
    concat (map (render_choice force_unicode selected_choices)
                (StateWidget.choices self ++ choices)) in
  mret (join (String newline EmptyString) output).

End StateWidget.

(** ** A document flow, used to run the definitions *)

Definition Draft : StateDecl := mkState "docs.flows.Draft" "draft" "Draft".
Definition Published : StateDecl :=
  mkState "docs.flows.Published" "published" "Published".
Definition Archived : StateDecl :=
  mkState "docs.flows.Archived" "archived" "Archived".

Definition DocFlow : FlowDecl := mkFlow "docs.flows.DocFlow" [Draft; Published].


(** An interpreter in which only [docs.flows] can be imported. *)
Definition doc_finder (mod_name : string) : result pymodule :=
  if String.eqb mod_name "docs.flows"
  then Ok (<["DocFlow" := PyClass (ClsFlow DocFlow)]> ∅)
  else Raise (ImportError mod_name).

(** The field [StateFlowField(flow=DocFlow)] registered as [status]. *)
Definition doc_field : StateFlowField.t :=
  {| StateFlowField._flow_kwarg := PyClass (ClsFlow DocFlow);
     StateFlowField.flow := PyClass (ClsFlow DocFlow);
     StateFlowField.flow_path := PyStr (py_str (PyClass (ClsFlow DocFlow)));
     StateFlowField.verbose_name := PyNone;
     StateFlowField.name := "status" |}.


(** The widget holding the choices of [doc_field]'s form field. *)
Definition doc_widget : StateWidget.t :=
  {| StateWidget.choices :=
       map (fun c => (c.1, StateWidget.Label c.2))
           ((PyNone, PyStr "----") :: Flow_state_choices DocFlow) |}.

(** A host method that names the field after the attribute and leaves the
    class as it is. *)
Definition naming_contribute : contribute_fn :=
  fun self cls name =>
    Ok ({| StateFlowField._flow_kwarg := StateFlowField._flow_kwarg self;
           StateFlowField.flow := StateFlowField.flow self;
           StateFlowField.flow_path := StateFlowField.flow_path self;
           StateFlowField.verbose_name := StateFlowField.verbose_name self;
           StateFlowField.name := name |}, cls).

(** The slot invariant of the data model: the value is [None] or a state
    declared by the flow. *)
Definition canonical_in (fl : FlowDecl) (v : pyval) : Prop :=
  v = PyNone \/ exists s, In s (fl_states fl) /\ v = PyClass (ClsState s).

(** * Properties *)

(** ** Lookup in a flow *)

Lemma Flow_get_state_Ok (f : FlowDecl) (value v : pyval) :
  Flow_get_state f value = Ok v ->
  exists s, v = PyClass (ClsState s) /\ In s (fl_states f)
            /\ value = PyStr (st_value s).
Proof.
  unfold Flow_get_state.
  destruct (find _ _) as [s|] eqn:Hfind; [|discriminate].
  intros [= <-]. apply find_some in Hfind as [Hin Heq].
  apply bool_decide_eq_true in Heq. eauto.
Qed.

Lemma Flow_get_state_Raise (f : FlowDecl) (value : pyval) (e : exn) :
  Flow_get_state f value = Raise e ->
  e = LookupError (py_str value)
  /\ forall s, In s (fl_states f) -> value <> PyStr (st_value s).
Proof.
  unfold Flow_get_state.
  destruct (find _ _) as [s|] eqn:Hfind; [discriminate|].
  intros [= <-]. split; [done|]. intros s Hin ->.
  pose proof (find_none _ _ Hfind s Hin) as Hno. simpl in Hno.
  apply bool_decide_eq_false in Hno. by apply Hno.
Qed.

Lemma Flow_get_state_token (f : FlowDecl) (s : StateDecl) :
  In s (fl_states f) ->
  exists s', Flow_get_state f (PyStr (st_value s)) = Ok (PyClass (ClsState s'))
             /\ In s' (fl_states f) /\ st_value s' = st_value s.
Proof.
  intros Hin.
  destruct (Flow_get_state f (PyStr (st_value s))) as [v|e] eqn:Hget.
  - apply Flow_get_state_Ok in Hget as (s' & -> & Hin' & [= Heq]). eauto.
  - apply Flow_get_state_Raise in Hget as [_ Hno]. by destruct (Hno s Hin).
Qed.

Lemma Flow_get_state_unknown (f : FlowDecl) (value : pyval) :
  (forall t, In t (flow_tokens f) -> value <> PyStr t) ->
  Flow_get_state f value = Raise (LookupError (py_str value)).
Proof.
  intros Hunknown.
  destruct (Flow_get_state f value) as [v|e] eqn:Hget.
  - apply Flow_get_state_Ok in Hget as (s & _ & Hin & ->).
    destruct (Hunknown (st_value s)); [|done].
    unfold flow_tokens. by apply in_map.
  - apply Flow_get_state_Raise in Hget as [-> _]. done.
Qed.

Lemma tokens_identify_states_spec (f : FlowDecl) (s1 s2 : StateDecl) :
  tokens_identify_states f = true ->
  In s1 (fl_states f) -> In s2 (fl_states f) ->
  st_value s1 = st_value s2 -> s1 = s2.
Proof.
  unfold tokens_identify_states. rewrite forallb_forall.
  intros Hall H1 H2 Heq. specialize (Hall s1 H1).
  rewrite forallb_forall in Hall. specialize (Hall s2 H2).
  rewrite (bool_decide_eq_true_2 _ Heq) in Hall. simpl in Hall.
  by apply bool_decide_eq_true in Hall.
Qed.

(** ** The state test of the conversions *)

Lemma is_state_class_state (s : StateDecl) :
  StateFlowField.is_state_class (PyClass (ClsState s)) = Ok true.
Proof. reflexivity. Qed.

Lemma is_state_class_total (value : pyval) :
  exists b, StateFlowField.is_state_class value = Ok b
            /\ (b = true <-> exists s, value = PyClass (ClsState s)).
Proof.
  destruct value as [| |z|[s|f|n]|c]; simpl.
  4: { exists true. split; [done|]. split; eauto. }
  all: exists false; (split; [done|]); split; [done|]; by intros [? [=]].
Qed.

Lemma to_python_state (self : StateFlowField.t) (s : StateDecl) :
  StateFlowField.to_python self (PyClass (ClsState s)) = Ok (PyClass (ClsState s)).
Proof. reflexivity. Qed.

Lemma to_python_other (self : StateFlowField.t) (value : pyval) :
  (forall s, value <> PyClass (ClsState s)) ->
  StateFlowField.to_python self value
  = call_get_state (StateFlowField.flow self) value.
Proof.
  intros Hns. unfold StateFlowField.to_python.
  destruct (is_state_class_total value) as (b & -> & Hb). simpl.
  destruct b; [|done]. destruct Hb as [Hb _]. destruct (Hb eq_refl) as [s ->].
  by destruct (Hns s).
Qed.

(** Whatever [to_python] returns is a state class: the value itself, or the
    state of the field's flow carrying the given token. *)
Lemma to_python_Ok (self : StateFlowField.t) (value v : pyval) :
  StateFlowField.to_python self value = Ok v ->
  exists s, v = PyClass (ClsState s)
    /\ (v = value
        \/ exists fl, StateFlowField.flow self = PyClass (ClsFlow fl)
                      /\ In s (fl_states fl) /\ value = PyStr (st_value s)).
Proof.
  intros Hto.
  destruct (is_state_class_total value) as (b & Hb & Hiff).
  destruct b.
  - destruct Hiff as [Hiff _]. destruct (Hiff eq_refl) as [s ->].
    rewrite to_python_state in Hto. injection Hto as <-. eauto.
  - rewrite to_python_other in Hto.
    + unfold call_get_state in Hto.
      destruct (StateFlowField.flow self) as [| | |[|fl|]|]; try discriminate.
      apply Flow_get_state_Ok in Hto as (s & -> & Hin & ->). eauto 10.
    + intros s ->. destruct Hiff as [_ Hiff]. by discriminate Hiff; eauto.
Qed.

(** ** The coercing accessor *)

(** C1, as stated, fails: assigning a state class that the field's flow does
    not declare stores that class, which is neither [None] nor a state of
    the flow. *)
Lemma set_foreign_state_not_canonical :
  exists obj',
    Creator.__set__ (Creator.__init__ doc_field) (mkInstance ∅)
                    (PyClass (ClsState Archived)) = Ok obj'
    /\ __dict__ obj' !! "status" = Some (PyClass (ClsState Archived))
    /\ ~ canonical_in DocFlow (PyClass (ClsState Archived)).
Proof.
  eexists. split; [reflexivity|]. split; [reflexivity|].
  intros [Hnone|(s & Hin & [= <-])]; [discriminate|].
  simpl in Hin. destruct Hin as [H|[H|[]]]; discriminate.
Qed.

(** C1, amended: after a successful assignment through the accessor the slot
    holds [None] or a state class, which is the assigned class itself
    (whether or not the field's flow declares it) or the state of the
    field's flow whose token was assigned; it never holds the raw token. *)
Theorem set_stores_state_class
    (self : Creator.t) (obj obj' : instance) (value : pyval) :
  Creator.__set__ self obj value = Ok obj' ->
  exists v,
    __dict__ obj' !! StateFlowField.name (Creator.field self) = Some v
    /\ (v = PyNone
        \/ exists s, v = PyClass (ClsState s)
             /\ (v = value
                 \/ exists fl,
                      StateFlowField.flow (Creator.field self)
                        = PyClass (ClsFlow fl)
                      /\ In s (fl_states fl) /\ value = PyStr (st_value s)))
    /\ (forall t, value = PyStr t -> v <> value).
Proof.
  unfold Creator.__set__. intros Hset.
  destruct (StateFlowField.to_python _ value) as [v|e] eqn:Hto;
    [|discriminate].
  injection Hset as <-. exists v. simpl.
  split; [apply lookup_insert_eq|].
  apply to_python_Ok in Hto as (s & -> & Hfrom).
  split; [right; eauto|]. by intros t ->.
Qed.

Lemma set_stores_state_class_witness :
  let self := Creator.__init__ doc_field in
  let obj' := mkInstance (<["status" := PyClass (ClsState Draft)]> ∅) in
  Creator.__set__ self (mkInstance ∅) (PyStr "draft") = Ok obj'
  /\ exists v,
      __dict__ obj' !! StateFlowField.name (Creator.field self) = Some v
      /\ (v = PyNone
          \/ exists s, v = PyClass (ClsState s)
               /\ (v = PyStr "draft"
                   \/ exists fl,
                        StateFlowField.flow (Creator.field self)
                          = PyClass (ClsFlow fl)
                        /\ In s (fl_states fl)
                        /\ PyStr "draft" = PyStr (st_value s)))
      /\ (forall t, PyStr "draft" = PyStr t -> v <> PyStr "draft").
Proof.
  intros self obj'. split; [reflexivity|].
  apply (set_stores_state_class self (mkInstance ∅) obj' (PyStr "draft")).
  reflexivity.
Defined.

(** C2: a write stores [field.to_python(raw_value)] under the field's name
    and a later read gives that value back; a read on an instance returns
    whatever the slot holds, without consulting the flow; a read on the
    record type returns the accessor itself. *)
Theorem accessor_contract
    (self : Creator.t) (obj : instance) (raw_value : pyval) :
  (forall coerced,
      StateFlowField.to_python (Creator.field self) raw_value = Ok coerced ->
      exists obj',
        Creator.__set__ self obj raw_value = Ok obj'
        /\ __dict__ obj'
           = <[StateFlowField.name (Creator.field self) := coerced]>
               (__dict__ obj)
        /\ Creator.__get__ self (Some obj') = Ok (Creator.Value coerced))
  /\ (forall e,
      StateFlowField.to_python (Creator.field self) raw_value = Raise e ->
      Creator.__set__ self obj raw_value = Raise e)
  /\ (forall stored,
      __dict__ obj !! StateFlowField.name (Creator.field self) = Some stored ->
      Creator.__get__ self (Some obj) = Ok (Creator.Value stored))
  /\ Creator.__get__ self None = Ok (Creator.Descriptor self).
Proof.
  repeat split.
  - intros coerced Hto. eexists. unfold Creator.__set__. rewrite Hto. simpl.
    split; [reflexivity|]. split; [reflexivity|].
    unfold Creator.__get__. simpl. by rewrite lookup_insert_eq.
  - intros e Hto. unfold Creator.__set__. by rewrite Hto.
  - intros stored Hslot. simpl. by rewrite Hslot.
Qed.

Lemma accessor_contract_witness :
  exists obj',
    Creator.__set__ (Creator.__init__ doc_field) (mkInstance ∅) (PyStr "draft")
      = Ok obj'
    /\ __dict__ obj' = <["status" := PyClass (ClsState Draft)]> ∅
    /\ Creator.__get__ (Creator.__init__ doc_field) (Some obj')
       = Ok (Creator.Value (PyClass (ClsState Draft))).
Proof.
  apply (accessor_contract (Creator.__init__ doc_field) (mkInstance ∅)
           (PyStr "draft")).
  reflexivity.
Defined.

(** ** Conversions of the field *)

Lemma get_prep_value_state (self : StateFlowField.t) (s : StateDecl) :
  StateFlowField.get_prep_value self (PyClass (ClsState s))
  = Ok (PyStr (st_value s)).
Proof. reflexivity. Qed.





(** In a flow whose states are identified by their tokens every state makes
    the round trip. *)
Lemma roundtrip_when_tokens_identify_states
    (self : StateFlowField.t) (fl : FlowDecl) (s : StateDecl) :
  StateFlowField.flow self = PyClass (ClsFlow fl) ->
  tokens_identify_states fl = true ->
  In s (fl_states fl) ->
  StateFlowField.to_python self (PyStr (st_value s))
  = Ok (PyClass (ClsState s)).
Proof.
  intros Hflow Hident Hin.
  rewrite to_python_other by done. rewrite Hflow. simpl.
  destruct (Flow_get_state_token fl s Hin) as (s' & -> & Hin' & Htok).
  by rewrite (tokens_identify_states_spec fl s' s Hident Hin' Hin Htok).
Qed.

(** Without the identification of states by tokens the round trip still
    ends in a state of the flow carrying the same token. *)
Lemma prep_value_to_python_same_token
    (self : StateFlowField.t) (fl : FlowDecl) (s : StateDecl) :
  StateFlowField.flow self = PyClass (ClsFlow fl) ->
  In s (fl_states fl) ->
  exists s',
    StateFlowField.to_python self (PyStr (st_value s))
    = Ok (PyClass (ClsState s'))
    /\ In s' (fl_states fl) /\ st_value s' = st_value s.
Proof.
  intros Hflow Hin. rewrite to_python_other by done. rewrite Hflow. simpl.
  by apply Flow_get_state_token.
Qed.

(** C4: a state that is already resolved is returned as it is, and
    converting the result of converting a valid token changes nothing. *)
Theorem to_python_idempotent (self : StateFlowField.t) :
  (forall s,
      StateFlowField.to_python self (PyClass (ClsState s))
      = Ok (PyClass (ClsState s)))
  /\ (forall fl t,
      StateFlowField.flow self = PyClass (ClsFlow fl) ->
      In t (flow_tokens fl) ->
      exists state,
        StateFlowField.to_python self (PyStr t) = Ok state
        /\ StateFlowField.to_python self state = Ok state).
Proof.
  split; [apply to_python_state|].
  intros fl t Hflow Htok. unfold flow_tokens in Htok.
  apply in_map_iff in Htok as (s & <- & Hin).
  destruct (Flow_get_state_token fl s Hin) as (s' & Hget & _ & _).
  exists (PyClass (ClsState s')). split; [|apply to_python_state].
  rewrite to_python_other by done. by rewrite Hflow.
Qed.

Lemma to_python_idempotent_witness :
  exists state,
    StateFlowField.to_python doc_field (PyStr "published") = Ok state
    /\ StateFlowField.to_python doc_field state = Ok state.
Proof.
  apply (proj2 (to_python_idempotent doc_field) DocFlow "published");
    [reflexivity | right; left; reflexivity].
Defined.

(** C5: a value that is neither a state class nor a token of the field's
    flow makes the inbound conversion raise the flow's lookup error; loading
    from storage and writing through the accessor raise the same error, and
    nothing is stored. *)
Theorem unknown_value_raises
    (self : StateFlowField.t) (fl : FlowDecl) (value : pyval)
    (obj : instance) :
  StateFlowField.flow self = PyClass (ClsFlow fl) ->
  (forall s, value <> PyClass (ClsState s)) ->
  (forall t, In t (flow_tokens fl) -> value <> PyStr t) ->
  exists msg,
    StateFlowField.to_python self value = Raise (LookupError msg)
    /\ StateFlowField.from_db_value self value = Raise (LookupError msg)
    /\ Creator.__set__ (Creator.__init__ self) obj value
       = Raise (LookupError msg).
Proof.
  intros Hflow Hnostate Hnotoken. exists (py_str value).
  assert (StateFlowField.to_python self value
          = Raise (LookupError (py_str value))) as Hto.
  { rewrite to_python_other by done. rewrite Hflow. simpl.
    by apply Flow_get_state_unknown. }
  split; [done|]. split; [done|].
  unfold Creator.__set__. simpl. by rewrite Hto.
Qed.

Lemma unknown_value_raises_witness :
  exists msg,
    StateFlowField.to_python doc_field (PyStr "not-a-real-token")
      = Raise (LookupError msg)
    /\ StateFlowField.from_db_value doc_field (PyStr "not-a-real-token")
       = Raise (LookupError msg)
    /\ Creator.__set__ (Creator.__init__ doc_field) (mkInstance ∅)
                       (PyStr "not-a-real-token")
       = Raise (LookupError msg).
Proof.
  apply (unknown_value_raises doc_field DocFlow (PyStr "not-a-real-token")
           (mkInstance ∅)).
  - reflexivity.
  - intros s. discriminate.
  - intros t [<-|[<-|[]]]; discriminate.
Defined.

(** ** Construction and flow resolution *)

(** C6: a field constructed with [flow=None] (the default of an omitted
    argument) raises the constructor's [ValueError] at once: whatever the
    interpreter could import, [import_module] has not been called. *)
Theorem init_without_flow_raises
    (finder : string -> result pymodule) (verbose_name : pyval)
    (name : string) (st : list string) :
  StateFlowField.__init__ finder verbose_name name PyNone st
  = (Raise (ValueError "StateFlowField need to have defined flow"), st).
Proof. reflexivity. Qed.

(** *** Splitting a locator at its last separator *)

Lemma rindex_absent (c : ascii) (s : string) :
  rindex c s = None <-> absent c s = true.
Proof.
  induction s as [|a s IH]; simpl; [done|].
  destruct (rindex c s) as [i|].
  - split; [discriminate|]. intros [_ Habs]%andb_prop.
    destruct IH as [_ IH]. by discriminate IH.
  - destruct (Ascii.eqb a c); simpl; [done|]. by destruct IH as [IH _]; auto.
Qed.

Lemma rindex_app_sep (c : ascii) (ns sym : string) :
  absent c sym = true ->
  rindex c (ns +:+ String c sym) = Some (String.length ns).
Proof.
  intros Habs. induction ns as [|a ns IH]; simpl.
  - apply rindex_absent in Habs as ->. by rewrite Ascii.eqb_refl.
  - by rewrite IH.
Qed.

Lemma substring_whole (s : string) : substring 0 (String.length s) s = s.
Proof. induction s as [|a s IH]; simpl; [done|]. by rewrite IH. Qed.

Lemma slice_to_app (ns rest : string) :
  slice_to (ns +:+ rest) (String.length ns) = ns.
Proof.
  unfold slice_to. induction ns as [|a ns IH]; simpl.
  - by destruct rest.
  - by rewrite IH.
Qed.

Lemma slice_from_app (c : ascii) (ns sym : string) :
  slice_from (ns +:+ String c sym) (String.length ns + 1) = sym.
Proof.
  unfold slice_from. induction ns as [|a ns IH]; simpl.
  - rewrite Nat.sub_0_r. apply substring_whole.
  - apply IH.
Qed.

(** Every string on which [rindex] succeeds splits around its last
    separator. *)
Lemma rindex_Some_split (c : ascii) (s : string) (i : nat) :
  rindex c s = Some i ->
  exists ns sym, s = ns +:+ String c sym /\ absent c sym = true
                 /\ i = String.length ns.
Proof.
  revert i. induction s as [|a s IH]; simpl; [discriminate|].
  intros i. destruct (rindex c s) as [j|] eqn:Hr.
  - intros [= <-]. destruct (IH j eq_refl) as (ns & sym & -> & Habs & ->).
    by exists (String a ns), sym.
  - destruct (Ascii.eqb a c) eqn:Hac; [|discriminate].
    intros [= <-]. apply Ascii.eqb_eq in Hac as ->.
    exists EmptyString, s. by rewrite <- rindex_absent.
Qed.

(** *** The resolver *)

Lemma load_flow_locator
    (finder : string -> result pymodule) (ns sym : string)
    (st : list string) :
  absent "." sym = true ->
  load_flow finder (PyStr (ns +:+ "." +:+ sym)) st
  = (mod_ ← finder ns; getattr mod_ sym, st ++ [ns]).
Proof.
  intros Habs. unfold load_flow.
  change ("." +:+ sym) with (String "."%char sym).
  rewrite rindex_app_sep by done.
  rewrite slice_to_app, slice_from_app.
  unfold mbind, M_bind, import_module, lift, mret, M_ret.
  by destruct (finder ns) as [m|e]; simpl; [destruct (getattr m sym)|].
Qed.

Lemma load_flow_no_separator
    (finder : string -> result pymodule) (path : string)
    (st : list string) :
  absent "." path = true ->
  load_flow finder (PyStr path) st
  = (Raise (ValueError "substring not found"), st).
Proof.
  intros Habs. unfold load_flow. by apply rindex_absent in Habs as ->.
Qed.

Lemma resolve_flow_class
    (finder : string -> result pymodule) (f : FlowDecl) (st : list string) :
  resolve_flow finder (PyClass (ClsFlow f)) st
  = (Ok (PyClass (ClsFlow f), PyStr (py_str (PyClass (ClsFlow f)))), st).
Proof. reflexivity. Qed.

(** Anything but a subclass of [Flow] is handed to [load_flow], and the
    reference itself becomes the second component. *)
Lemma resolve_flow_fallthrough
    (finder : string -> result pymodule) (ref : pyval) (st : list string) :
  (forall f, ref <> PyClass (ClsFlow f)) ->
  resolve_flow finder ref st
  = match load_flow finder ref st with
    | (Ok flow, st') => (Ok (flow, ref), st')
    | (Raise e, st') => (Raise e, st')
    end.
Proof.
  intros Hnoflow. unfold resolve_flow.
  destruct ref as [| | |[s|f|n]|c]; try reflexivity.
  by destruct (Hnoflow f).
Qed.

Lemma init_resolves
    (finder : string -> result pymodule) (verbose_name : pyval)
    (name : string) (ref : pyval) (st : list string) :
  ref <> PyNone ->
  StateFlowField.__init__ finder verbose_name name ref st
  = match resolve_flow finder ref st with
    | (Ok (resolved, path), st') =>
        (Ok {| StateFlowField._flow_kwarg := ref;
               StateFlowField.flow := resolved;
               StateFlowField.flow_path := path;
               StateFlowField.verbose_name := verbose_name;
               StateFlowField.name := name |}, st')
    | (Raise e, st') => (Raise e, st')
    end.
Proof.
  intros Href. unfold StateFlowField.__init__, mbind, M_bind.
  destruct ref; try done;
    by destruct (resolve_flow finder _ st) as [[[resolved path]|e] st'].
Qed.

(** C7: a subclass of [Flow] is returned as it is, paired with its string
    form; any other reference goes to [load_flow] as a locator and is paired
    with itself; a locator is split at its last ['.'], the part before it is
    imported and the part after it fetched from the module; a failing import
    or a missing attribute reaches the caller of the constructor as raised. *)
Theorem resolve_flow_contract
    (finder : string -> result pymodule) (st : list string) :
  (forall f,
      resolve_flow finder (PyClass (ClsFlow f)) st
      = (Ok (PyClass (ClsFlow f), PyStr (py_str (PyClass (ClsFlow f)))), st))
  /\ (forall ref,
      (forall f, ref <> PyClass (ClsFlow f)) ->
      resolve_flow finder ref st
      = match load_flow finder ref st with
        | (Ok flow, st') => (Ok (flow, ref), st')
        | (Raise e, st') => (Raise e, st')
        end)
  /\ (forall ns sym,
      absent "." sym = true ->
      let locator := PyStr (ns +:+ "." +:+ sym) in
      (forall m flow,
          finder ns = Ok m -> m !! sym = Some flow ->
          resolve_flow finder locator st = (Ok (flow, locator), st ++ [ns]))
      /\ (forall e verbose_name name,
          finder ns = Raise e ->
          StateFlowField.__init__ finder verbose_name name locator st
          = (Raise e, st ++ [ns]))
      /\ (forall m verbose_name name,
          finder ns = Ok m -> m !! sym = None ->
          StateFlowField.__init__ finder verbose_name name locator st
          = (Raise (AttributeError sym), st ++ [ns]))).
Proof.
  split; [intros f; apply resolve_flow_class|].
  split; [intros ref; apply resolve_flow_fallthrough|].
  intros ns sym Habs locator.
  assert (forall verbose_name name,
    StateFlowField.__init__ finder verbose_name name locator st
    = match resolve_flow finder locator st with
      | (Ok (resolved, path), st') =>
          (Ok (StateFlowField.mk locator resolved path verbose_name name), st')
      | (Raise e, st') => (Raise e, st')
      end) as Hinit by (intros; by apply init_resolves).
  assert (resolve_flow finder locator st
          = match (mod_ ← finder ns; getattr mod_ sym) with
            | Ok flow => (Ok (flow, locator), st ++ [ns])
            | Raise e => (Raise e, st ++ [ns])
            end) as Hres.
  { rewrite resolve_flow_fallthrough by done. unfold locator.
    rewrite load_flow_locator by done. by destruct (_ ≫= _). }
  repeat split.
  - intros m flow Hm Hsym. rewrite Hres, Hm. simpl.
    unfold getattr. by rewrite Hsym.
  - intros e verbose_name name He. by rewrite Hinit, Hres, He.
  - intros m verbose_name name Hm Hsym. rewrite Hinit, Hres, Hm. simpl.
    unfold getattr. by rewrite Hsym.
Qed.

Lemma resolve_flow_contract_witness :
  absent "." "DocFlow" = true
  /\ resolve_flow doc_finder (PyStr ("docs.flows" +:+ "." +:+ "DocFlow")) []
     = (Ok (PyClass (ClsFlow DocFlow),
            PyStr ("docs.flows" +:+ "." +:+ "DocFlow")),
        [] ++ ["docs.flows"]).
Proof.
  split; [reflexivity|].
  apply (proj1 (proj2 (proj2 (resolve_flow_contract doc_finder []))
                  "docs.flows" "DocFlow" eq_refl)
           (<["DocFlow" := PyClass (ClsFlow DocFlow)]> ∅));
    reflexivity.
Defined.

(** C10: a locator string without ['.'] makes the constructor raise the
    [ValueError] of [rindex], with nothing imported; every reference that is
    not a class takes the same way into [load_flow], where one that is not a
    string fails on the [rindex] attribute. *)
Theorem locator_without_separator
    (finder : string -> result pymodule) (st : list string) :
  (forall path verbose_name name,
      absent "." path = true ->
      StateFlowField.__init__ finder verbose_name name (PyStr path) st
      = (Raise (ValueError "substring not found"), st))
  /\ (forall ref,
      is_type ref = false ->
      resolve_flow finder ref st
      = match load_flow finder ref st with
        | (Ok flow, st') => (Ok (flow, ref), st')
        | (Raise e, st') => (Raise e, st')
        end)
  /\ (forall ref verbose_name name,
      is_type ref = false ->
      (forall s, ref <> PyStr s) ->
      resolve_flow finder ref st = (Raise (AttributeError "rindex"), st)
      /\ (ref <> PyNone ->
          StateFlowField.__init__ finder verbose_name name ref st
          = (Raise (AttributeError "rindex"), st))).
Proof.
  assert (forall ref, is_type ref = false ->
                      forall f, ref <> PyClass (ClsFlow f)) as Hnocls.
  { intros ref Hty f ->. discriminate. }
  split; [|split].
  - intros path verbose_name name Habs.
    rewrite init_resolves by done.
    rewrite resolve_flow_fallthrough by done.
    by rewrite load_flow_no_separator.
  - intros ref Hty. apply resolve_flow_fallthrough. by apply Hnocls.
  - intros ref verbose_name name Hty Hnostr.
    assert (resolve_flow finder ref st
            = (Raise (AttributeError "rindex"), st)) as Hres.
    { rewrite resolve_flow_fallthrough by (by apply Hnocls).
      destruct ref as [|s| | |]; try done. by destruct (Hnostr s). }
    split; [done|]. intros Hnone. rewrite init_resolves by done.
    by rewrite Hres.
Qed.

Lemma locator_without_separator_witness :
  absent "." "docsflows" = true
  /\ StateFlowField.__init__ doc_finder PyNone "status" (PyStr "docsflows") []
     = (Raise (ValueError "substring not found"), []).
Proof.
  split; [reflexivity|].
  apply (proj1 (locator_without_separator doc_finder [])
           "docsflows" PyNone "status").
  reflexivity.
Defined.

(** ** Choices and their rendering *)

(** C8, as stated, fails: for the flow whose choice pairs are
    [("draft","Draft")] and [("published","Published")] the label of the
    first entry is not the one the claim gives. *)
Lemma formfield_unset_label_differs :
  Flow_state_choices DocFlow
  = [(PyStr "draft", PyStr "Draft"); (PyStr "published", PyStr "Published")]
  /\ exists form,
      StateFlowField.formfield doc_field = Ok form
      /\ StateFlowField.choices form
         <> [(PyNone, PyStr "— unset —");
             (PyStr "draft", PyStr "Draft");
             (PyStr "published", PyStr "Published")].
Proof.
  split; [reflexivity|]. eexists. split; [reflexivity|]. simpl. discriminate.
Qed.

(** C8, amended: the choices handed to the form field are the entry
    [(None, "----")] followed by [Flow.state_choices()] in order; for the
    draft/published flow that is exactly the three pairs below. *)
Theorem formfield_choices (self : StateFlowField.t) (fl : FlowDecl) :
  StateFlowField.flow self = PyClass (ClsFlow fl) ->
  exists form,
    StateFlowField.formfield self = Ok form
    /\ StateFlowField.widget form = StateFlowField.StateWidget_cls
    /\ StateFlowField.choices form
       = (PyNone, PyStr "----") :: Flow_state_choices fl
    /\ (Flow_state_choices fl
        = [(PyStr "draft", PyStr "Draft");
           (PyStr "published", PyStr "Published")] ->
        StateFlowField.choices form
        = [(PyNone, PyStr "----");
           (PyStr "draft", PyStr "Draft");
           (PyStr "published", PyStr "Published")]).
Proof.
  intros Hflow. unfold StateFlowField.formfield. rewrite Hflow. simpl.
  eexists. split; [reflexivity|]. simpl. split; [done|]. split; [done|].
  by intros ->.
Qed.

Lemma formfield_choices_witness :
  StateFlowField.flow doc_field = PyClass (ClsFlow DocFlow)
  /\ exists form,
      StateFlowField.formfield doc_field = Ok form
      /\ StateFlowField.widget form = StateFlowField.StateWidget_cls
      /\ StateFlowField.choices form
         = (PyNone, PyStr "----") :: Flow_state_choices DocFlow
      /\ (Flow_state_choices DocFlow
          = [(PyStr "draft", PyStr "Draft");
             (PyStr "published", PyStr "Published")] ->
          StateFlowField.choices form
          = [(PyNone, PyStr "----");
             (PyStr "draft", PyStr "Draft");
             (PyStr "published", PyStr "Published")]).
Proof.
  split; [reflexivity|].
  apply (formfield_choices doc_field DocFlow). reflexivity.
Defined.

(** A selected value that is a class object does not pass the
    [isinstance(v, DjangoState)] filter. *)
Lemma selected_tokens_class (c : pyclass) (selected : list pyval) :
  StateWidget.selected_tokens (PyClass c :: selected)
  = StateWidget.selected_tokens selected.
Proof. reflexivity. Qed.

Lemma selected_tokens_instance (s : StateDecl) :
  StateWidget.selected_tokens [PyInst (ClsState s)] = Ok [st_value s].
Proof. reflexivity. Qed.

(** Rendering with a state class among the selected values is rendering
    without it, whatever [django.utils.encoding] defines. *)
Lemma render_options_ignores_class
    (encoding : encoding_module) (self : StateWidget.t)
    (choices : list (pyval * StateWidget.option_label))
    (c : pyclass) (selected : list pyval) :
  StateWidget.render_options encoding self choices (PyClass c :: selected)
  = StateWidget.render_options encoding self choices selected.
Proof.
  unfold StateWidget.render_options. by rewrite selected_tokens_class.
Qed.

(** Without [force_unicode] in [django.utils.encoding] the import at the
    head of [render_options] raises, whatever the arguments are. *)
Lemma render_options_import_fails
    (encoding : encoding_module) (self : StateWidget.t)
    (choices : list (pyval * StateWidget.option_label))
    (selected : list pyval) :
  encoding !! "force_unicode" = None ->
  StateWidget.render_options encoding self choices selected
  = Raise (ImportError
             "cannot import name 'force_unicode' from 'django.utils.encoding'").
Proof.
  intros Hnone. unfold StateWidget.render_options, import_from.
  by rewrite Hnone.
Qed.

(** C9 on the code: the state that [to_python] resolves the token ["draft"]
    to is the class [Draft]; with it as the selected value, as with any
    other arguments, [render_options] raises the [ImportError] of its
    import of [force_unicode]: no selected value is reduced to a token and
    no option is rendered or marked. *)
Theorem render_options_raises_import_error :
  StateFlowField.to_python doc_field (PyStr "draft")
  = Ok (PyClass (ClsState Draft))
  /\ StateWidget.render_options django_utils_encoding doc_widget []
       [PyClass (ClsState Draft)]
     = Raise (ImportError
         "cannot import name 'force_unicode' from 'django.utils.encoding'")
  /\ (forall self choices selected,
        StateWidget.render_options django_utils_encoding self choices selected
        = Raise (ImportError
            "cannot import name 'force_unicode' from 'django.utils.encoding'")).
Proof.
  split; [reflexivity|].
  split; [|intros self choices selected];
    by apply render_options_import_fails.
Qed.

(** * Further properties of the module *)

(** ** The accessor as a store *)

(** X1: a write through an accessor changes the slot of its own field only:
    every other attribute of the record keeps its content, and a read
    through the accessor of a field with another name gives what it gave
    before, the [KeyError] of an unset slot included. *)
Theorem set_touches_own_slot_only
    (self other : Creator.t) (obj obj' : instance) (value : pyval) :
  Creator.__set__ other obj value = Ok obj' ->
  (forall k, k <> StateFlowField.name (Creator.field other) ->
             __dict__ obj' !! k = __dict__ obj !! k)
  /\ (StateFlowField.name (Creator.field self)
      <> StateFlowField.name (Creator.field other) ->
      Creator.__get__ self (Some obj') = Creator.__get__ self (Some obj)).
Proof.
  unfold Creator.__set__. intros Hset.
  destruct (StateFlowField.to_python _ value) as [c|e]; [|discriminate].
  injection Hset as <-. simpl.
  split.
  - intros k Hk. by rewrite lookup_insert_ne.
  - intros Hname. unfold Creator.__get__. simpl.
    by rewrite lookup_insert_ne.
Qed.

Lemma set_touches_own_slot_only_witness :
  let other := Creator.__init__ doc_field in
  let obj := mkInstance (<["title" := PyStr "Report"]> ∅) in
  let obj' := mkInstance (<["status" := PyClass (ClsState Draft)]>
                            (<["title" := PyStr "Report"]> ∅)) in
  Creator.__set__ other obj (PyStr "draft") = Ok obj'
  /\ (forall k, k <> StateFlowField.name (Creator.field other) ->
                __dict__ obj' !! k = __dict__ obj !! k).
Proof.
  intros other obj obj'. split; [reflexivity|].
  apply (set_touches_own_slot_only other other obj obj' (PyStr "draft")).
  reflexivity.
Defined.

(** X2: the only exception a read on an instance can raise is the
    [KeyError] carrying the field's name, and it is raised exactly when the
    record has no slot for the field. *)
Theorem get_raises_iff_unset (self : Creator.t) (obj : instance) (e : exn) :
  Creator.__get__ self (Some obj) = Raise e
  <-> e = KeyError (StateFlowField.name (Creator.field self))
      /\ __dict__ obj !! StateFlowField.name (Creator.field self) = None.
Proof.
  unfold Creator.__get__.
  destruct (__dict__ obj !! _) as [v|]; split.
  - discriminate.
  - by intros [_ ?].
  - by intros [= <-].
  - by intros [-> _].
Qed.

(** X3: of two successful writes the later one alone decides the record:
    the result is the one of writing the second value directly. *)
Theorem set_last_write_wins
    (self : Creator.t) (obj obj1 obj2 : instance) (v1 v2 : pyval) :
  Creator.__set__ self obj v1 = Ok obj1 ->
  Creator.__set__ self obj1 v2 = Ok obj2 ->
  Creator.__set__ self obj v2 = Ok obj2.
Proof.
  unfold Creator.__set__. intros H1 H2.
  destruct (StateFlowField.to_python _ v1) as [c1|]; [|discriminate].
  injection H1 as <-.
  destruct (StateFlowField.to_python _ v2) as [c2|]; [|discriminate].
  injection H2 as <-. simpl. by rewrite insert_insert_eq.
Qed.

Lemma set_last_write_wins_witness :
  let self := Creator.__init__ doc_field in
  let obj1 := mkInstance (<["status" := PyClass (ClsState Draft)]> ∅) in
  let obj2 := mkInstance (<["status" := PyClass (ClsState Published)]>
                            (<["status" := PyClass (ClsState Draft)]> ∅)) in
  Creator.__set__ self (mkInstance ∅) (PyStr "draft") = Ok obj1
  /\ Creator.__set__ self obj1 (PyStr "published") = Ok obj2
  /\ Creator.__set__ self (mkInstance ∅) (PyStr "published") = Ok obj2.
Proof.
  intros self obj1 obj2. split; [reflexivity|]. split; [reflexivity|].
  apply (set_last_write_wins self (mkInstance ∅) obj1 obj2
           (PyStr "draft") (PyStr "published")); reflexivity.
Defined.

(** X4: writing back the value that a read returns after a successful
    write changes nothing: the write succeeds and the record is the same. *)
Theorem set_read_value_is_noop
    (self : Creator.t) (obj obj1 : instance) (value stored : pyval) :
  Creator.__set__ self obj value = Ok obj1 ->
  Creator.__get__ self (Some obj1) = Ok (Creator.Value stored) ->
  Creator.__set__ self obj1 stored = Ok obj1.
Proof.
  unfold Creator.__set__, Creator.__get__. intros Hset Hget.
  destruct (StateFlowField.to_python _ value) as [c|] eqn:Hto; [|discriminate].
  injection Hset as <-. simpl in Hget. rewrite lookup_insert_eq in Hget.
  injection Hget as <-.
  apply to_python_Ok in Hto as (s & -> & _).
  rewrite to_python_state. simpl. by rewrite insert_insert_eq.
Qed.

Lemma set_read_value_is_noop_witness :
  let self := Creator.__init__ doc_field in
  let obj1 := mkInstance (<["status" := PyClass (ClsState Draft)]> ∅) in
  Creator.__set__ self (mkInstance ∅) (PyStr "draft") = Ok obj1
  /\ Creator.__get__ self (Some obj1)
     = Ok (Creator.Value (PyClass (ClsState Draft)))
  /\ Creator.__set__ self obj1 (PyClass (ClsState Draft)) = Ok obj1.
Proof.
  intros self obj1. split; [reflexivity|]. split; [reflexivity|].
  apply (set_read_value_is_noop self (mkInstance ∅) obj1 (PyStr "draft")
           (PyClass (ClsState Draft))); reflexivity.
Defined.

(** ** The outbound conversion *)

(** X5: the outbound conversion never raises, and its result is [None] for
    [None], the token for a state class, and the string form of the value
    for anything else; it is never a class or another object. *)
Theorem get_prep_value_cases (self : StateFlowField.t) (value : pyval) :
  exists r,
    StateFlowField.get_prep_value self value = Ok r
    /\ ((value = PyNone /\ r = PyNone)
        \/ (exists s, value = PyClass (ClsState s) /\ r = PyStr (st_value s))
        \/ (value <> PyNone /\ (forall s, value <> PyClass (ClsState s))
            /\ r = PyStr (py_str value))).
Proof.
  destruct value as [|t|z|[s|f|n]|c]; simpl; eexists; (split; [reflexivity|]).
  - by left.
  - right; right. by repeat split.
  - right; right. by repeat split.
  - right; left. eauto.
  - right; right. by repeat split.
  - right; right. by repeat split.
  - right; right. by repeat split.
Qed.

(** X6: the outbound conversion is idempotent: a prepared value is prepared
    to itself, so a raw token or [None] handed to it passes unchanged. *)
Theorem get_prep_value_idempotent
    (self : StateFlowField.t) (value r : pyval) :
  StateFlowField.get_prep_value self value = Ok r ->
  StateFlowField.get_prep_value self r = Ok r.
Proof.
  destruct value as [|t|z|[s|f|n]|c]; simpl; by intros [= <-].
Qed.

Lemma get_prep_value_idempotent_witness :
  StateFlowField.get_prep_value doc_field (PyClass (ClsState Draft))
    = Ok (PyStr "draft")
  /\ StateFlowField.get_prep_value doc_field (PyStr "draft")
     = Ok (PyStr "draft").
Proof.
  split; [reflexivity|].
  apply (get_prep_value_idempotent doc_field (PyClass (ClsState Draft))
           (PyStr "draft")).
  reflexivity.
Defined.

Lemma to_python_prep_value
    (self : StateFlowField.t) (value state : pyval) :
  StateFlowField.to_python self value = Ok state ->
  exists s, state = PyClass (ClsState s)
            /\ StateFlowField.get_prep_value self value
               = Ok (PyStr (st_value s)).
Proof.
  intros Hto.
  apply to_python_Ok in Hto as (s & -> & [<-|(fl & _ & _ & ->)]);
    by exists s.
Qed.

(** X7: coercion does not change what is persisted: whenever the inbound
    conversion of a value succeeds, the outbound conversion of its result
    is the outbound conversion of the value itself. *)
Theorem to_python_keeps_prep_value
    (self : StateFlowField.t) (value state : pyval) :
  StateFlowField.to_python self value = Ok state ->
  StateFlowField.get_prep_value self state
  = StateFlowField.get_prep_value self value.
Proof.
  intros (s & -> & ->)%to_python_prep_value. reflexivity.
Qed.

Lemma to_python_keeps_prep_value_witness :
  StateFlowField.to_python doc_field (PyStr "published")
    = Ok (PyClass (ClsState Published))
  /\ StateFlowField.get_prep_value doc_field (PyClass (ClsState Published))
     = StateFlowField.get_prep_value doc_field (PyStr "published").
Proof.
  split; [reflexivity|].
  apply (to_python_keeps_prep_value doc_field (PyStr "published")
           (PyClass (ClsState Published))).
  reflexivity.
Defined.

(** ** Construction, resolution and reconstruction *)

Lemma rindex_slices (path : string) (dot : nat) :
  rindex "." path = Some dot ->
  path = slice_to path dot +:+ "." +:+ slice_from path (dot + 1)
  /\ absent "." (slice_from path (dot + 1)) = true
  /\ String.length (slice_to path dot) = dot.
Proof.
  intros (ns & sym & -> & Habs & ->)%rindex_Some_split.
  by rewrite slice_to_app, slice_from_app.
Qed.

Lemma load_flow_at_rindex
    (finder : string -> result pymodule) (path : string) (dot : nat)
    (st : list string) :
  rindex "." path = Some dot ->
  load_flow finder (PyStr path) st
  = (mod_ ← finder (slice_to path dot);
     getattr mod_ (slice_from path (dot + 1)),
     st ++ [slice_to path dot]).
Proof.
  intros Hdot.
  destruct (rindex_slices path dot Hdot) as (Hpath & Habs & _).
  rewrite Hpath at 1. by apply load_flow_locator.
Qed.

Lemma init_Ok_arguments
    (finder : string -> result pymodule) (verbose_name : pyval)
    (name : string) (ref : pyval) (st st' : list string)
    (fld : StateFlowField.t) :
  StateFlowField.__init__ finder verbose_name name ref st = (Ok fld, st') ->
  StateFlowField._flow_kwarg fld = ref
  /\ StateFlowField.verbose_name fld = verbose_name
  /\ StateFlowField.name fld = name.
Proof.
  intros Hinit. destruct (decide (ref = PyNone)) as [->|Href];
    [discriminate|].
  rewrite init_resolves in Hinit by done.
  destruct (resolve_flow finder ref st) as [[[resolved path]|e] st''];
    [|discriminate].
  by injection Hinit as <- <-.
Qed.

(** X8: whenever [rindex] finds a separator, the two slices [load_flow]
    takes put the locator together again around one ['.'], the second slice
    holds no further ['.'], and [load_flow] imports the first slice, once,
    and fetches the second from the module. *)
Theorem load_flow_splits_at_last_dot
    (finder : string -> result pymodule) (path : string) (dot : nat)
    (st : list string) :
  rindex "." path = Some dot ->
  let mod_name := slice_to path dot in
  let cls_name := slice_from path (dot + 1) in
  path = mod_name +:+ "." +:+ cls_name
  /\ absent "." cls_name = true
  /\ load_flow finder (PyStr path) st
     = (mod_ ← finder mod_name; getattr mod_ cls_name, st ++ [mod_name]).
Proof.
  intros Hdot mod_name cls_name.
  destruct (rindex_slices path dot Hdot) as (Hpath & Habs & _).
  split; [done|]. split; [done|]. by apply load_flow_at_rindex.
Qed.

Lemma load_flow_splits_at_last_dot_witness :
  rindex "." "docs.flows.DocFlow" = Some 10
  /\ "docs.flows.DocFlow"
     = slice_to "docs.flows.DocFlow" 10 +:+ "."
       +:+ slice_from "docs.flows.DocFlow" (10 + 1)
  /\ slice_to "docs.flows.DocFlow" 10 = "docs.flows"
  /\ slice_from "docs.flows.DocFlow" (10 + 1) = "DocFlow".
Proof.
  split; [reflexivity|].
  split; [|split; reflexivity].
  apply (load_flow_splits_at_last_dot doc_finder "docs.flows.DocFlow" 10 []).
  reflexivity.
Defined.

(** X9: a construction calls [import_module] at most once, whether it
    succeeds or raises, and only for a string reference that contains a
    ['.']; the module name is then the text before the last ['.']. *)
Theorem init_imports_at_most_once
    (finder : string -> result pymodule) (verbose_name : pyval)
    (name : string) (ref : pyval) (st : list string) :
  (StateFlowField.__init__ finder verbose_name name ref st).2 = st
  \/ exists path dot,
      ref = PyStr path /\ rindex "." path = Some dot
      /\ (StateFlowField.__init__ finder verbose_name name ref st).2
         = st ++ [slice_to path dot].
Proof.
  destruct ref as [|path|z|[s|f|n]|c]; try (left; reflexivity).
  rewrite init_resolves by done.
  rewrite resolve_flow_fallthrough by done.
  destruct (rindex "." path) as [dot|] eqn:Hdot.
  - right. exists path, dot. split; [done|]. split; [done|].
    rewrite (load_flow_at_rindex finder path dot st Hdot).
    by destruct (_ ≫= _).
  - left. apply rindex_absent in Hdot.
    by rewrite load_flow_no_separator.
Qed.

(** X10: a successful construction keeps the reference it was given in
    [_flow_kwarg] and comes about in one of two ways: the reference is a
    subclass of [Flow], which becomes the flow with its string form as path
    and nothing is imported; or it is a string [ns.sym] with no ['.'] in
    [sym], the module [ns] was imported and holds the flow under [sym], and
    the path is the string itself. *)
Theorem init_Ok_inversion
    (finder : string -> result pymodule) (verbose_name : pyval)
    (name : string) (ref : pyval) (st st' : list string)
    (fld : StateFlowField.t) :
  StateFlowField.__init__ finder verbose_name name ref st = (Ok fld, st') ->
  StateFlowField._flow_kwarg fld = ref
  /\ StateFlowField.verbose_name fld = verbose_name
  /\ StateFlowField.name fld = name
  /\ ((exists f, ref = PyClass (ClsFlow f)
                 /\ StateFlowField.flow fld = ref
                 /\ StateFlowField.flow_path fld = PyStr (py_str ref)
                 /\ st' = st)
      \/ (exists ns sym m,
             ref = PyStr (ns +:+ "." +:+ sym)
             /\ absent "." sym = true
             /\ finder ns = Ok m
             /\ m !! sym = Some (StateFlowField.flow fld)
             /\ StateFlowField.flow_path fld = ref
             /\ st' = st ++ [ns])).
Proof.
  intros Hinit.
  destruct ref as [|path|z|[s|f|n]|c]; try discriminate.
  - rewrite init_resolves in Hinit by done.
    rewrite resolve_flow_fallthrough in Hinit by done.
    destruct (rindex "." path) as [dot|] eqn:Hdot.
    + destruct (rindex_slices path dot Hdot) as (Hpath & Habs & _).
      rewrite (load_flow_at_rindex finder path dot st Hdot) in Hinit.
      destruct (finder (slice_to path dot)) as [m|e] eqn:Hm;
        [|discriminate].
      simpl in Hinit. unfold getattr in Hinit.
      destruct (m !! slice_from path (dot + 1)) as [v|] eqn:Hsym;
        [|discriminate].
      injection Hinit as <- <-. simpl. repeat split.
      right. exists (slice_to path dot), (slice_from path (dot + 1)), m.
      by repeat split; try rewrite <- Hpath.
    + apply rindex_absent in Hdot.
      rewrite load_flow_no_separator in Hinit by done. discriminate.
  - injection Hinit as <- <-. simpl. repeat split. left. by exists f.
Qed.

Lemma init_Ok_inversion_witness :
  let fld :=
    StateFlowField.mk (PyStr "docs.flows.DocFlow") (PyClass (ClsFlow DocFlow))
                      (PyStr "docs.flows.DocFlow") PyNone "status" in
  StateFlowField.__init__ doc_finder PyNone "status"
                          (PyStr "docs.flows.DocFlow") []
    = (Ok fld, ["docs.flows"])
  /\ StateFlowField._flow_kwarg fld = PyStr "docs.flows.DocFlow".
Proof.
  intros fld. split; [reflexivity|].
  apply (init_Ok_inversion doc_finder PyNone "status"
           (PyStr "docs.flows.DocFlow") [] ["docs.flows"] fld).
  reflexivity.
Defined.

(** X11: for a field that was constructed successfully, [deconstruct]
    returns the host's name, path and arguments, puts the reference the
    constructor was given, not the resolved flow, under ["flow"] in place
    of whatever the host had there, keeps every other keyword, and the
    constructor run again on that keyword gives the same field. *)
Theorem deconstruct_reconstructs
    (finder : string -> result pymodule) (verbose_name : pyval)
    (name : string) (ref : pyval) (st st' : list string)
    (fld : StateFlowField.t)
    (host_name host_path : string) (host_args : list pyval)
    (host_kwargs : gmap string pyval) :
  StateFlowField.__init__ finder verbose_name name ref st = (Ok fld, st') ->
  exists kwargs,
    StateFlowField.deconstruct fld
      (host_name, host_path, host_args, host_kwargs)
    = (host_name, host_path, host_args, kwargs)
    /\ kwargs !! "flow" = Some ref
    /\ (forall k, k <> "flow" -> kwargs !! k = host_kwargs !! k)
    /\ (forall flow_arg,
          kwargs !! "flow" = Some flow_arg ->
          StateFlowField.__init__ finder verbose_name name flow_arg st
          = (Ok fld, st')).
Proof.
  intros Hinit.
  destruct (init_Ok_arguments _ _ _ _ _ _ _ Hinit) as (Hkw & _).
  eexists. split; [reflexivity|]. rewrite Hkw.
  split; [apply lookup_insert_eq|].
  split; [intros k Hk; by rewrite lookup_insert_ne|].
  intros flow_arg. rewrite lookup_insert_eq. by intros [= <-].
Qed.

Lemma deconstruct_reconstructs_witness :
  let fld :=
    StateFlowField.mk (PyStr "docs.flows.DocFlow") (PyClass (ClsFlow DocFlow))
                      (PyStr "docs.flows.DocFlow") PyNone "status" in
  StateFlowField.__init__ doc_finder PyNone "status"
                          (PyStr "docs.flows.DocFlow") []
    = (Ok fld, ["docs.flows"])
  /\ exists kwargs,
      StateFlowField.deconstruct fld
        ("status", "stateflow.statefields.StateFlowField", [],
         <["flow" := PyInt 0]> ∅)
      = ("status", "stateflow.statefields.StateFlowField", [], kwargs)
      /\ kwargs !! "flow" = Some (PyStr "docs.flows.DocFlow")
      /\ (forall k, k <> "flow" ->
                    kwargs !! k
                    = (<["flow" := PyInt 0]> ∅ : gmap string pyval) !! k)
      /\ (forall flow_arg,
            kwargs !! "flow" = Some flow_arg ->
            StateFlowField.__init__ doc_finder PyNone "status" flow_arg []
            = (Ok fld, ["docs.flows"])).
Proof.
  intros fld. split; [reflexivity|].
  apply (deconstruct_reconstructs doc_finder PyNone "status"
           (PyStr "docs.flows.DocFlow") [] ["docs.flows"] fld).
  reflexivity.
Defined.

(** ** Registration *)

(** X12: the [contribute_to_class] that [SubfieldBase] gives a field class
    runs the method of the class body when there is one and the method of
    the superclass otherwise; when that call returns, the accessor of the
    field is installed on the record type under the name the field then
    has, replacing what was there, and every other attribute of the type
    is as the call left it; when it raises, the exception comes out and
    nothing is installed. *)
Theorem contribute_installs_accessor
    (super_contribute : contribute_fn) (attrs : gmap string contribute_fn)
    (self : StateFlowField.t) (cls : model_class) (name : string) :
  let host := default super_contribute (attrs !! "contribute_to_class") in
  (forall self' cls',
      host self cls name = Ok (self', cls') ->
      exists cls'',
        SubfieldBase_new super_contribute attrs self cls name
        = Ok (self', cls'')
        /\ cls_attrs cls'' !! StateFlowField.name self'
           = Some (Accessor (Creator.__init__ self'))
        /\ (forall k, k <> StateFlowField.name self' ->
                      cls_attrs cls'' !! k = cls_attrs cls' !! k))
  /\ (forall e,
      host self cls name = Raise e ->
      SubfieldBase_new super_contribute attrs self cls name = Raise e).
Proof.
  intros host. unfold SubfieldBase_new, make_contrib. subst host.
  destruct (attrs !! "contribute_to_class") as [func|]; simpl; split.
  - intros self' cls' ->. simpl. eexists. split; [reflexivity|]. simpl.
    split; [apply lookup_insert_eq|].
    intros k Hk. by rewrite lookup_insert_ne.
  - by intros e ->.
  - intros self' cls' ->. simpl. eexists. split; [reflexivity|]. simpl.
    split; [apply lookup_insert_eq|].
    intros k Hk. by rewrite lookup_insert_ne.
  - by intros e ->.
Qed.

Lemma contribute_installs_accessor_witness :
  let cls := mkModelClass (<["status" := Plain (PyStr "draft")]> ∅) in
  let self' :=
    StateFlowField.mk (PyClass (ClsFlow DocFlow)) (PyClass (ClsFlow DocFlow))
      (PyStr (py_str (PyClass (ClsFlow DocFlow)))) PyNone "status" in
  exists cls'',
    SubfieldBase_new naming_contribute ∅ doc_field cls "status"
    = Ok (self', cls'')
    /\ cls_attrs cls'' !! StateFlowField.name self'
       = Some (Accessor (Creator.__init__ self'))
    /\ (forall k, k <> StateFlowField.name self' ->
                  cls_attrs cls'' !! k = cls_attrs cls !! k).
Proof.
  intros cls self'.
  apply (proj1 (contribute_installs_accessor naming_contribute ∅ doc_field
                  cls "status") self' cls).
  reflexivity.
Defined.

(** ** From assignment to storage *)

(** X17: what is persisted for a record is decided by what was assigned:
    after a successful write the value read back is prepared for storage to
    the same scalar as the assigned value itself, so an assigned token is
    saved as that token and an assigned state class as its token. *)
Theorem assigned_value_is_persisted
    (self : Creator.t) (obj obj' : instance) (value : pyval) :
  Creator.__set__ self obj value = Ok obj' ->
  exists stored,
    Creator.__get__ self (Some obj') = Ok (Creator.Value stored)
    /\ StateFlowField.get_prep_value (Creator.field self) stored
       = StateFlowField.get_prep_value (Creator.field self) value
    /\ exists token,
        StateFlowField.get_prep_value (Creator.field self) stored
        = Ok (PyStr token).
Proof.
  unfold Creator.__set__, Creator.__get__. intros Hset.
  destruct (StateFlowField.to_python _ value) as [c|] eqn:Hto; [|discriminate].
  injection Hset as <-. simpl. rewrite lookup_insert_eq.
  exists c. split; [done|].
  apply to_python_prep_value in Hto as (s & -> & ->).
  split; [reflexivity|]. by exists (st_value s).
Qed.

Lemma assigned_value_is_persisted_witness :
  let self := Creator.__init__ doc_field in
  let obj' := mkInstance (<["status" := PyClass (ClsState Published)]> ∅) in
  Creator.__set__ self (mkInstance ∅) (PyStr "published") = Ok obj'
  /\ exists stored,
      Creator.__get__ self (Some obj') = Ok (Creator.Value stored)
      /\ StateFlowField.get_prep_value (Creator.field self) stored
         = StateFlowField.get_prep_value (Creator.field self)
             (PyStr "published")
      /\ exists token,
          StateFlowField.get_prep_value (Creator.field self) stored
          = Ok (PyStr token).
Proof.
  intros self obj'. split; [reflexivity|].
  apply (assigned_value_is_persisted self (mkInstance ∅) obj'
           (PyStr "published")).
  reflexivity.
Defined.
